(** * Milvus client configuration: connection config, index parameter
      configs and the family registry

    A shallow embedding of [vectordb_bench/backend/clients/milvus/config.py].
    Every class of the module is a record in a Rocq module of the same name;
    the base class [MilvusIndexConfig] is a type class over the records, the
    payload dictionaries are finite maps with string keys, and operations
    that can raise return a [result]. *)

From Stdlib Require Import ZArith.
From Stdlib Require Import Floats.PrimFloat.
From stdpp Require Import base option list strings gmap.

Local Open Scope Z_scope.
Local Open Scope string_scope.

(** ** Exceptions and results *)

(** One entry of a pydantic validation report: which field, and why. *)
Inductive field_error :=
  | MissingRequiredField            (* no value and no default *)
  | ValueError (msg : string).      (* raised by a validator *)

Inductive exn :=
  | ValidationError (errors : list (string * field_error))
  | AttributeError (attr : string)
  | NotSupported.

Inductive result (A : Type) :=
  | Ok (a : A)
  | Raise (e : exn).
Arguments Ok {A} a.
Arguments Raise {A} e.

#[export] Instance result_ret : MRet result := @Ok.
#[export] Instance result_bind : MBind result := λ A B f r,
  match r with
  | Ok a => f a
  | Raise e => Raise e
  end.

(** ** Python values that reach the payloads *)

Inductive atom :=
  | PyNone
  | Int (z : Z)
  | Float (f : float)
  | Str (s : string).

Inductive pyobj :=
  | Atom (a : atom)
  | Dict (d : gmap string atom).

Coercion Atom : atom >-> pyobj.

(** [x] for an [int | None] or [float | None] attribute. *)
Definition opt_int (o : option Z) : atom := from_option Int PyNone o.
Definition opt_float (o : option float) : atom := from_option Float PyNone o.
Definition opt_str (o : option string) : atom := from_option Str PyNone o.

(** ** Enumerations *)

(** Modelled from the spec: [MetricType] and [IndexType] are declared in
    [..api], which is not part of this module.  Both are string-valued
    enumerations.  The spec names L2, inner product and cosine as the metrics
    there are at minimum; their identifiers are the ones the spec and the
    comments of [GPUBruteForceConfig] give (L2, IP, COSINE), and [Other]
    stands for any further member, with its identifier.  A member compares
    equal to its identifier, and so to a member of the same identifier, as
    the members of a string-valued enumeration do. *)
Module MetricType.
Inductive t := L2 | IP | COSINE | Other (identifier : string).

Definition value (m : t) : string :=
  match m with
  | L2 => "L2"
  | IP => "IP"
  | COSINE => "COSINE"
  | Other identifier => identifier
  end.

#[export] Instance metric_eq_dec : EqDecision t.
Proof. solve_decision. Defined.
End MetricType.
Export (hints) MetricType.

(** Modelled from the spec: the index families.  The ten members this module
    refers to are listed; [Other] stands for any further member of the
    enumeration.  The wire tag of a member is the one the spec's scenarios
    show ("GPU_IVF_FLAT", "Flat"): the member's own name. *)
Module IndexType.
Inductive t :=
  | AUTOINDEX | HNSW | DISKANN | IVFFlat | IVFSQ8 | Flat
  | GPU_IVF_FLAT | GPU_IVF_PQ | GPU_CAGRA | GPU_BRUTE_FORCE
  | Other (tag : string).

Definition value (i : t) : string :=
  match i with
  | AUTOINDEX => "AUTOINDEX"
  | HNSW => "HNSW"
  | DISKANN => "DISKANN"
  | IVFFlat => "IVFFlat"
  | IVFSQ8 => "IVFSQ8"
  | Flat => "Flat"
  | GPU_IVF_FLAT => "GPU_IVF_FLAT"
  | GPU_IVF_PQ => "GPU_IVF_PQ"
  | GPU_CAGRA => "GPU_CAGRA"
  | GPU_BRUTE_FORCE => "GPU_BRUTE_FORCE"
  | Other tag => tag
  end.

#[export] Instance index_eq_dec : EqDecision t.
Proof. solve_decision. Defined.

Definition encode (i : t) : nat + string :=
  match i with
  | AUTOINDEX => inl 0%nat
  | HNSW => inl 1%nat
  | DISKANN => inl 2%nat
  | IVFFlat => inl 3%nat
  | IVFSQ8 => inl 4%nat
  | Flat => inl 5%nat
  | GPU_IVF_FLAT => inl 6%nat
  | GPU_IVF_PQ => inl 7%nat
  | GPU_CAGRA => inl 8%nat
  | GPU_BRUTE_FORCE => inl 9%nat
  | Other tag => inr tag
  end.

Definition decode (x : nat + string) : t :=
  match x with
  | inl 0%nat => AUTOINDEX
  | inl 1%nat => HNSW
  | inl 2%nat => DISKANN
  | inl 3%nat => IVFFlat
  | inl 4%nat => IVFSQ8
  | inl 5%nat => Flat
  | inl 6%nat => GPU_IVF_FLAT
  | inl 7%nat => GPU_IVF_PQ
  | inl 8%nat => GPU_CAGRA
  | inl _ => GPU_BRUTE_FORCE
  | inr tag => Other tag
  end.

#[export] Instance countable : Countable t.
Proof. apply (inj_countable' encode decode). by intros []. Defined.
End IndexType.
Export (hints) IndexType.

(** ** The base class [MilvusIndexConfig] *)

(** What the attribute [metric_type] of an instance holds.  The base class
    declares it [MetricType | None]; [GPUBruteForceConfig] redeclares it
    [str]. *)
Inductive metric_val :=
  | MNone
  | MEnum (m : MetricType.t)
  | MStr (s : string).

(** [not v] *)
Definition metric_falsy (v : metric_val) : bool :=
  match v with
  | MNone => true
  | MEnum m => bool_decide (MetricType.value m = "")
  | MStr s => bool_decide (s = "")
  end.

(** [v == MetricType.m] *)
Definition metric_eqb (v : metric_val) (m : MetricType.t) : bool :=
  match v with
  | MNone => false
  | MEnum m' => bool_decide (MetricType.value m' = MetricType.value m)
  | MStr s => bool_decide (s = MetricType.value m)
  end.

(** [v.value]: a plain string has no such attribute. *)
Definition metric_value (v : metric_val) : result string :=
  match v with
  | MEnum m => Ok (MetricType.value m)
  | MStr _ => Raise (AttributeError "value")
  | MNone => Raise (AttributeError "value")
  end.

Module MilvusIndexConfig.
Class t (A : Type) := {
  index : A → IndexType.t;
  metric_type : A → metric_val;
}.

Section methods.
Context `{t A}.

Definition is_gpu_index (self : A) : bool :=
  bool_decide (index self ∈
    [IndexType.GPU_CAGRA; IndexType.GPU_IVF_FLAT;
     IndexType.GPU_IVF_PQ; IndexType.GPU_BRUTE_FORCE]).

Definition parse_metric (self : A) : result string :=
  if metric_falsy (metric_type self) then Ok ""
  else if is_gpu_index self && metric_eqb (metric_type self) MetricType.COSINE
  then Ok (MetricType.value MetricType.L2)
  else metric_value (metric_type self).
End methods.
End MilvusIndexConfig.

(** The interface [DBCaseConfig] of [..api]: the two payloads. *)
Module DBCaseConfig.
Class t (A : Type) := {
  index_param : A → result (gmap string pyobj);
  search_param : A → result (gmap string pyobj);
}.
End DBCaseConfig.

(** ** Construction

    A pydantic model is built from keyword arguments.  An argument is
    [None] when the keyword is not passed and [Some v] when it is passed with
    the value [v], taken at the field's declared type (so an argument for an
    [int | None] field is an [option (option Z)]).  A field without a default
    whose keyword is not passed is reported missing; the reports of all
    fields are collected, in field order, into one [ValidationError]. *)

Inductive validated (A : Type) :=
  | Valid (a : A)
  | Invalid (errors : list (string * field_error)).
Arguments Valid {A} a.
Arguments Invalid {A} errors.

Definition vap {A B} (f : validated (A → B)) (x : validated A) : validated B :=
  match f, x with
  | Valid g, Valid a => Valid (g a)
  | Valid _, Invalid e => Invalid e
  | Invalid e, Valid _ => Invalid e
  | Invalid e1, Invalid e2 => Invalid (e1 ++ e2)
  end.
Notation "f <*> x" := (vap f x) (at level 61, left associativity).

(** [name: T] *)
Definition required {A} (name : string) (arg : option A) : validated A :=
  match arg with
  | Some a => Valid a
  | None => Invalid [(name, MissingRequiredField)]
  end.

(** [name: T = d] *)
Definition optional {A} (d : A) (arg : option A) : validated A :=
  Valid (default d arg).

Definition construct {A} (v : validated A) : result A :=
  match v with
  | Valid a => Ok a
  | Invalid errors => Raise (ValidationError errors)
  end.


(** ** The index parameter configs *)

Module AutoIndexConfig.
Record t := mk {
  index : IndexType.t;
  metric_type : option MetricType.t;
}.

(** [index: IndexType = IndexType.AUTOINDEX] *)
Definition index_default : IndexType.t := IndexType.AUTOINDEX.

Definition init (index : option IndexType.t)
    (metric_type : option (option MetricType.t)) : result t :=
  construct (Valid mk
    <*> optional index_default index
    <*> optional None metric_type).

#[global] Instance base : MilvusIndexConfig.t t := {|
  MilvusIndexConfig.index := index;
  MilvusIndexConfig.metric_type self := from_option MEnum MNone (metric_type self);
|}.

Definition index_param (self : t) : result (gmap string pyobj) :=
  m ← MilvusIndexConfig.parse_metric self;
  mret {[ "metric_type" := Atom (Str m);
          "index_type" := Atom (Str (IndexType.value (index self)));
          "params" := Dict ∅ ]}.

Definition search_param (self : t) : result (gmap string pyobj) :=
  m ← MilvusIndexConfig.parse_metric self;
  mret {[ "metric_type" := Atom (Str m) ]}.

#[global] Instance case : DBCaseConfig.t t := {|
  DBCaseConfig.index_param := index_param;
  DBCaseConfig.search_param := search_param;
|}.
End AutoIndexConfig.

Module HNSWConfig.
Record t := mk {
  index : IndexType.t;
  metric_type : option MetricType.t;
  M : Z;
  efConstruction : Z;
  ef : option Z;
}.

(** [index: IndexType = IndexType.HNSW] *)
Definition index_default : IndexType.t := IndexType.HNSW.

Definition init (index : option IndexType.t)
    (metric_type : option (option MetricType.t))
    (M efConstruction : option Z) (ef : option (option Z)) : result t :=
  construct (Valid mk
    <*> optional index_default index
    <*> optional None metric_type
    <*> required "M" M
    <*> required "efConstruction" efConstruction
    <*> optional None ef).

#[global] Instance base : MilvusIndexConfig.t t := {|
  MilvusIndexConfig.index := index;
  MilvusIndexConfig.metric_type self := from_option MEnum MNone (metric_type self);
|}.

Definition index_param (self : t) : result (gmap string pyobj) :=
  m ← MilvusIndexConfig.parse_metric self;
  mret {[ "metric_type" := Atom (Str m);
          "index_type" := Atom (Str (IndexType.value (index self)));
          "params" := Dict {[ "M" := Int (M self);
                              "efConstruction" := Int (efConstruction self) ]} ]}.

Definition search_param (self : t) : result (gmap string pyobj) :=
  m ← MilvusIndexConfig.parse_metric self;
  mret {[ "metric_type" := Atom (Str m);
          "params" := Dict {[ "ef" := opt_int (ef self) ]} ]}.

#[global] Instance case : DBCaseConfig.t t := {|
  DBCaseConfig.index_param := index_param;
  DBCaseConfig.search_param := search_param;
|}.
End HNSWConfig.

Module DISKANNConfig.
Record t := mk {
  index : IndexType.t;
  metric_type : option MetricType.t;
  search_list : option Z;
}.

(** [index: IndexType = IndexType.DISKANN] *)
Definition index_default : IndexType.t := IndexType.DISKANN.

Definition init (index : option IndexType.t)
    (metric_type : option (option MetricType.t))
    (search_list : option (option Z)) : result t :=
  construct (Valid mk
    <*> optional index_default index
    <*> optional None metric_type
    <*> optional None search_list).

#[global] Instance base : MilvusIndexConfig.t t := {|
  MilvusIndexConfig.index := index;
  MilvusIndexConfig.metric_type self := from_option MEnum MNone (metric_type self);
|}.

Definition index_param (self : t) : result (gmap string pyobj) :=
  m ← MilvusIndexConfig.parse_metric self;
  mret {[ "metric_type" := Atom (Str m);
          "index_type" := Atom (Str (IndexType.value (index self)));
          "params" := Dict ∅ ]}.

Definition search_param (self : t) : result (gmap string pyobj) :=
  m ← MilvusIndexConfig.parse_metric self;
  mret {[ "metric_type" := Atom (Str m);
          "params" := Dict {[ "search_list" := opt_int (search_list self) ]} ]}.

#[global] Instance case : DBCaseConfig.t t := {|
  DBCaseConfig.index_param := index_param;
  DBCaseConfig.search_param := search_param;
|}.
End DISKANNConfig.

Module IVFFlatConfig.
Record t := mk {
  index : IndexType.t;
  metric_type : option MetricType.t;
  nlist : Z;
  nprobe : option Z;
}.

(** [index: IndexType = IndexType.IVFFlat] *)
Definition index_default : IndexType.t := IndexType.IVFFlat.

Definition init (index : option IndexType.t)
    (metric_type : option (option MetricType.t))
    (nlist : option Z) (nprobe : option (option Z)) : result t :=
  construct (Valid mk
    <*> optional index_default index
    <*> optional None metric_type
    <*> required "nlist" nlist
    <*> optional None nprobe).

#[global] Instance base : MilvusIndexConfig.t t := {|
  MilvusIndexConfig.index := index;
  MilvusIndexConfig.metric_type self := from_option MEnum MNone (metric_type self);
|}.

Definition index_param (self : t) : result (gmap string pyobj) :=
  m ← MilvusIndexConfig.parse_metric self;
  mret {[ "metric_type" := Atom (Str m);
          "index_type" := Atom (Str (IndexType.value (index self)));
          "params" := Dict {[ "nlist" := Int (nlist self) ]} ]}.

Definition search_param (self : t) : result (gmap string pyobj) :=
  m ← MilvusIndexConfig.parse_metric self;
  mret {[ "metric_type" := Atom (Str m);
          "params" := Dict {[ "nprobe" := opt_int (nprobe self) ]} ]}.

#[global] Instance case : DBCaseConfig.t t := {|
  DBCaseConfig.index_param := index_param;
  DBCaseConfig.search_param := search_param;
|}.
End IVFFlatConfig.

Module IVFSQ8Config.
Record t := mk {
  index : IndexType.t;
  metric_type : option MetricType.t;
  nlist : Z;
  nprobe : option Z;
}.

(** [index: IndexType = IndexType.IVFSQ8] *)
Definition index_default : IndexType.t := IndexType.IVFSQ8.

Definition init (index : option IndexType.t)
    (metric_type : option (option MetricType.t))
    (nlist : option Z) (nprobe : option (option Z)) : result t :=
  construct (Valid mk
    <*> optional index_default index
    <*> optional None metric_type
    <*> required "nlist" nlist
    <*> optional None nprobe).

#[global] Instance base : MilvusIndexConfig.t t := {|
  MilvusIndexConfig.index := index;
  MilvusIndexConfig.metric_type self := from_option MEnum MNone (metric_type self);
|}.

Definition index_param (self : t) : result (gmap string pyobj) :=
  m ← MilvusIndexConfig.parse_metric self;
  mret {[ "metric_type" := Atom (Str m);
          "index_type" := Atom (Str (IndexType.value (index self)));
          "params" := Dict {[ "nlist" := Int (nlist self) ]} ]}.

Definition search_param (self : t) : result (gmap string pyobj) :=
  m ← MilvusIndexConfig.parse_metric self;
  mret {[ "metric_type" := Atom (Str m);
          "params" := Dict {[ "nprobe" := opt_int (nprobe self) ]} ]}.

#[global] Instance case : DBCaseConfig.t t := {|
  DBCaseConfig.index_param := index_param;
  DBCaseConfig.search_param := search_param;
|}.
End IVFSQ8Config.

Module FLATConfig.
Record t := mk {
  index : IndexType.t;
  metric_type : option MetricType.t;
}.

(** [index: IndexType = IndexType.Flat] *)
Definition index_default : IndexType.t := IndexType.Flat.

Definition init (index : option IndexType.t)
    (metric_type : option (option MetricType.t)) : result t :=
  construct (Valid mk
    <*> optional index_default index
    <*> optional None metric_type).

#[global] Instance base : MilvusIndexConfig.t t := {|
  MilvusIndexConfig.index := index;
  MilvusIndexConfig.metric_type self := from_option MEnum MNone (metric_type self);
|}.

Definition index_param (self : t) : result (gmap string pyobj) :=
  m ← MilvusIndexConfig.parse_metric self;
  mret {[ "metric_type" := Atom (Str m);
          "index_type" := Atom (Str (IndexType.value (index self)));
          "params" := Dict ∅ ]}.

Definition search_param (self : t) : result (gmap string pyobj) :=
  m ← MilvusIndexConfig.parse_metric self;
  mret {[ "metric_type" := Atom (Str m);
          "params" := Dict ∅ ]}.

#[global] Instance case : DBCaseConfig.t t := {|
  DBCaseConfig.index_param := index_param;
  DBCaseConfig.search_param := search_param;
|}.
End FLATConfig.

Module GPUIVFFlatConfig.
Record t := mk {
  index : IndexType.t;
  metric_type : option MetricType.t;
  nlist : Z;
  nprobe : Z;
  cache_dataset_on_device : string;
  refine_ratio : option float;
}.

(** [index: IndexType = IndexType.GPU_IVF_FLAT] *)
Definition index_default : IndexType.t := IndexType.GPU_IVF_FLAT.

Definition init (index : option IndexType.t)
    (metric_type : option (option MetricType.t))
    (nlist nprobe : option Z) (cache_dataset_on_device : option string)
    (refine_ratio : option (option float)) : result t :=
  construct (Valid mk
    <*> optional index_default index
    <*> optional None metric_type
    <*> optional 1024 nlist
    <*> optional 64 nprobe
    <*> required "cache_dataset_on_device" cache_dataset_on_device
    <*> optional None refine_ratio).

#[global] Instance base : MilvusIndexConfig.t t := {|
  MilvusIndexConfig.index := index;
  MilvusIndexConfig.metric_type self := from_option MEnum MNone (metric_type self);
|}.

Definition index_param (self : t) : result (gmap string pyobj) :=
  m ← MilvusIndexConfig.parse_metric self;
  mret {[ "metric_type" := Atom (Str m);
          "index_type" := Atom (Str (IndexType.value (index self)));
          "params" := Dict {[
            "nlist" := Int (nlist self);
            "cache_dataset_on_device" := Str (cache_dataset_on_device self) ]} ]}.

Definition search_param (self : t) : result (gmap string pyobj) :=
  m ← MilvusIndexConfig.parse_metric self;
  mret {[ "metric_type" := Atom (Str m);
          "params" := Dict {[ "nprobe" := Int (nprobe self);
                              "refine_ratio" := opt_float (refine_ratio self) ]} ]}.

#[global] Instance case : DBCaseConfig.t t := {|
  DBCaseConfig.index_param := index_param;
  DBCaseConfig.search_param := search_param;
|}.
End GPUIVFFlatConfig.

Module GPUBruteForceConfig.
Record t := mk {
  index : IndexType.t;
  metric_type : string;
  limit : Z;
}.

(** [index: IndexType = IndexType.GPU_BRUTE_FORCE] *)
Definition index_default : IndexType.t := IndexType.GPU_BRUTE_FORCE.

Definition init (index : option IndexType.t) (metric_type : option string)
    (limit : option Z) : result t :=
  construct (Valid mk
    <*> optional index_default index
    <*> required "metric_type" metric_type
    <*> optional 10 limit).

#[global] Instance base : MilvusIndexConfig.t t := {|
  MilvusIndexConfig.index := index;
  MilvusIndexConfig.metric_type self := MStr (metric_type self);
|}.

Definition index_param (self : t) : result (gmap string pyobj) :=
  m ← MilvusIndexConfig.parse_metric self;
  mret {[ "metric_type" := Atom (Str m);
          "index_type" := Atom (Str (IndexType.value (index self)));
          "params" := Dict ∅ ]}.

Definition search_param (self : t) : result (gmap string pyobj) :=
  m ← MilvusIndexConfig.parse_metric self;
  mret {[ "metric_type" := Atom (Str m);
          "params" := Dict {[ "nprobe" := Int 1;
                              "limit" := Int (limit self) ]} ]}.

#[global] Instance case : DBCaseConfig.t t := {|
  DBCaseConfig.index_param := index_param;
  DBCaseConfig.search_param := search_param;
|}.
End GPUBruteForceConfig.

Module GPUIVFPQConfig.
Record t := mk {
  index : IndexType.t;
  metric_type : option MetricType.t;
  nlist : Z;
  m : Z;
  nbits : Z;
  nprobe : Z;
  refine_ratio : option float;
  cache_dataset_on_device : string;
}.

(** [index: IndexType = IndexType.GPU_IVF_PQ] *)
Definition index_default : IndexType.t := IndexType.GPU_IVF_PQ.

Definition init (index : option IndexType.t)
    (metric_type : option (option MetricType.t))
    (nlist m nbits nprobe : option Z) (refine_ratio : option (option float))
    (cache_dataset_on_device : option string) : result t :=
  construct (Valid mk
    <*> optional index_default index
    <*> optional None metric_type
    <*> optional 1024 nlist
    <*> optional 0 m
    <*> optional 8 nbits
    <*> optional 32 nprobe
    <*> optional None refine_ratio
    <*> required "cache_dataset_on_device" cache_dataset_on_device).

#[global] Instance base : MilvusIndexConfig.t t := {|
  MilvusIndexConfig.index := index;
  MilvusIndexConfig.metric_type self := from_option MEnum MNone (metric_type self);
|}.

Definition index_param (self : t) : result (gmap string pyobj) :=
  metric ← MilvusIndexConfig.parse_metric self;
  mret {[ "metric_type" := Atom (Str metric);
          "index_type" := Atom (Str (IndexType.value (index self)));
          "params" := Dict {[
            "nlist" := Int (nlist self);
            "m" := Int (m self);
            "nbits" := Int (nbits self);
            "cache_dataset_on_device" := Str (cache_dataset_on_device self) ]} ]}.

Definition search_param (self : t) : result (gmap string pyobj) :=
  metric ← MilvusIndexConfig.parse_metric self;
  mret {[ "metric_type" := Atom (Str metric);
          "params" := Dict {[ "nprobe" := Int (nprobe self);
                              "refine_ratio" := opt_float (refine_ratio self) ]} ]}.

#[global] Instance case : DBCaseConfig.t t := {|
  DBCaseConfig.index_param := index_param;
  DBCaseConfig.search_param := search_param;
|}.
End GPUIVFPQConfig.

Module GPUCAGRAConfig.
Record t := mk {
  index : IndexType.t;
  metric_type : option MetricType.t;
  intermediate_graph_degree : Z;
  graph_degree : Z;
  itopk_size : Z;
  team_size : Z;
  search_width : Z;
  min_iterations : Z;
  max_iterations : Z;
  build_algo : string;
  cache_dataset_on_device : string;
  refine_ratio : option float;
}.

(** [index: IndexType = IndexType.GPU_CAGRA] *)
Definition index_default : IndexType.t := IndexType.GPU_CAGRA.

Definition init (index : option IndexType.t)
    (metric_type : option (option MetricType.t))
    (intermediate_graph_degree graph_degree itopk_size team_size
     search_width min_iterations max_iterations : option Z)
    (build_algo cache_dataset_on_device : option string)
    (refine_ratio : option (option float)) : result t :=
  construct (Valid mk
    <*> optional index_default index
    <*> optional None metric_type
    <*> optional 64 intermediate_graph_degree
    <*> optional 32 graph_degree
    <*> optional 128 itopk_size
    <*> optional 0 team_size
    <*> optional 4 search_width
    <*> optional 0 min_iterations
    <*> optional 0 max_iterations
    <*> optional "IVF_PQ" build_algo
    <*> required "cache_dataset_on_device" cache_dataset_on_device
    <*> optional None refine_ratio).

#[global] Instance base : MilvusIndexConfig.t t := {|
  MilvusIndexConfig.index := index;
  MilvusIndexConfig.metric_type self := from_option MEnum MNone (metric_type self);
|}.

Definition index_param (self : t) : result (gmap string pyobj) :=
  m ← MilvusIndexConfig.parse_metric self;
  mret {[ "metric_type" := Atom (Str m);
          "index_type" := Atom (Str (IndexType.value (index self)));
          "params" := Dict {[
            "intermediate_graph_degree" := Int (intermediate_graph_degree self);
            "graph_degree" := Int (graph_degree self);
            "build_algo" := Str (build_algo self);
            "cache_dataset_on_device" := Str (cache_dataset_on_device self) ]} ]}.

Definition search_param (self : t) : result (gmap string pyobj) :=
  m ← MilvusIndexConfig.parse_metric self;
  mret {[ "metric_type" := Atom (Str m);
          "params" := Dict {[
            "team_size" := Int (team_size self);
            "search_width" := Int (search_width self);
            "itopk_size" := Int (itopk_size self);
            "min_iterations" := Int (min_iterations self);
            "max_iterations" := Int (max_iterations self);
            "refine_ratio" := opt_float (refine_ratio self) ]} ]}.

#[global] Instance case : DBCaseConfig.t t := {|
  DBCaseConfig.index_param := index_param;
  DBCaseConfig.search_param := search_param;
|}.
End GPUCAGRAConfig.

(** ** Every variant, and the family registry *)

(** An instance of any of the ten classes. *)
Inductive case_config :=
  | OfAutoIndexConfig (c : AutoIndexConfig.t)
  | OfHNSWConfig (c : HNSWConfig.t)
  | OfDISKANNConfig (c : DISKANNConfig.t)
  | OfIVFFlatConfig (c : IVFFlatConfig.t)
  | OfIVFSQ8Config (c : IVFSQ8Config.t)
  | OfFLATConfig (c : FLATConfig.t)
  | OfGPUIVFFlatConfig (c : GPUIVFFlatConfig.t)
  | OfGPUIVFPQConfig (c : GPUIVFPQConfig.t)
  | OfGPUCAGRAConfig (c : GPUCAGRAConfig.t)
  | OfGPUBruteForceConfig (c : GPUBruteForceConfig.t).

#[export] Instance case_config_base : MilvusIndexConfig.t case_config := {|
  MilvusIndexConfig.index self :=
    match self with
    | OfAutoIndexConfig c => MilvusIndexConfig.index c
    | OfHNSWConfig c => MilvusIndexConfig.index c
    | OfDISKANNConfig c => MilvusIndexConfig.index c
    | OfIVFFlatConfig c => MilvusIndexConfig.index c
    | OfIVFSQ8Config c => MilvusIndexConfig.index c
    | OfFLATConfig c => MilvusIndexConfig.index c
    | OfGPUIVFFlatConfig c => MilvusIndexConfig.index c
    | OfGPUIVFPQConfig c => MilvusIndexConfig.index c
    | OfGPUCAGRAConfig c => MilvusIndexConfig.index c
    | OfGPUBruteForceConfig c => MilvusIndexConfig.index c
    end;
  MilvusIndexConfig.metric_type self :=
    match self with
    | OfAutoIndexConfig c => MilvusIndexConfig.metric_type c
    | OfHNSWConfig c => MilvusIndexConfig.metric_type c
    | OfDISKANNConfig c => MilvusIndexConfig.metric_type c
    | OfIVFFlatConfig c => MilvusIndexConfig.metric_type c
    | OfIVFSQ8Config c => MilvusIndexConfig.metric_type c
    | OfFLATConfig c => MilvusIndexConfig.metric_type c
    | OfGPUIVFFlatConfig c => MilvusIndexConfig.metric_type c
    | OfGPUIVFPQConfig c => MilvusIndexConfig.metric_type c
    | OfGPUCAGRAConfig c => MilvusIndexConfig.metric_type c
    | OfGPUBruteForceConfig c => MilvusIndexConfig.metric_type c
    end;
|}.

#[export] Instance case_config_case : DBCaseConfig.t case_config := {|
  DBCaseConfig.index_param self :=
    match self with
    | OfAutoIndexConfig c => DBCaseConfig.index_param c
    | OfHNSWConfig c => DBCaseConfig.index_param c
    | OfDISKANNConfig c => DBCaseConfig.index_param c
    | OfIVFFlatConfig c => DBCaseConfig.index_param c
    | OfIVFSQ8Config c => DBCaseConfig.index_param c
    | OfFLATConfig c => DBCaseConfig.index_param c
    | OfGPUIVFFlatConfig c => DBCaseConfig.index_param c
    | OfGPUIVFPQConfig c => DBCaseConfig.index_param c
    | OfGPUCAGRAConfig c => DBCaseConfig.index_param c
    | OfGPUBruteForceConfig c => DBCaseConfig.index_param c
    end;
  DBCaseConfig.search_param self :=
    match self with
    | OfAutoIndexConfig c => DBCaseConfig.search_param c
    | OfHNSWConfig c => DBCaseConfig.search_param c
    | OfDISKANNConfig c => DBCaseConfig.search_param c
    | OfIVFFlatConfig c => DBCaseConfig.search_param c
    | OfIVFSQ8Config c => DBCaseConfig.search_param c
    | OfFLATConfig c => DBCaseConfig.search_param c
    | OfGPUIVFFlatConfig c => DBCaseConfig.search_param c
    | OfGPUIVFPQConfig c => DBCaseConfig.search_param c
    | OfGPUCAGRAConfig c => DBCaseConfig.search_param c
    | OfGPUBruteForceConfig c => DBCaseConfig.search_param c
    end;
|}.

(** The classes themselves, as the values of the registry. *)
Inductive config_class :=
  | cls_AutoIndexConfig | cls_HNSWConfig | cls_DISKANNConfig
  | cls_IVFFlatConfig | cls_IVFSQ8Config | cls_FLATConfig
  | cls_GPUIVFFlatConfig | cls_GPUIVFPQConfig | cls_GPUCAGRAConfig
  | cls_GPUBruteForceConfig.

#[export] Instance config_class_eq_dec : EqDecision config_class.
Proof. solve_decision. Defined.

Definition class_of (self : case_config) : config_class :=
  match self with
  | OfAutoIndexConfig _ => cls_AutoIndexConfig
  | OfHNSWConfig _ => cls_HNSWConfig
  | OfDISKANNConfig _ => cls_DISKANNConfig
  | OfIVFFlatConfig _ => cls_IVFFlatConfig
  | OfIVFSQ8Config _ => cls_IVFSQ8Config
  | OfFLATConfig _ => cls_FLATConfig
  | OfGPUIVFFlatConfig _ => cls_GPUIVFFlatConfig
  | OfGPUIVFPQConfig _ => cls_GPUIVFPQConfig
  | OfGPUCAGRAConfig _ => cls_GPUCAGRAConfig
  | OfGPUBruteForceConfig _ => cls_GPUBruteForceConfig
  end.

(** The family a class declares as the default of its [index] field. *)
Definition index_default (cls : config_class) : IndexType.t :=
  match cls with
  | cls_AutoIndexConfig => AutoIndexConfig.index_default
  | cls_HNSWConfig => HNSWConfig.index_default
  | cls_DISKANNConfig => DISKANNConfig.index_default
  | cls_IVFFlatConfig => IVFFlatConfig.index_default
  | cls_IVFSQ8Config => IVFSQ8Config.index_default
  | cls_FLATConfig => FLATConfig.index_default
  | cls_GPUIVFFlatConfig => GPUIVFFlatConfig.index_default
  | cls_GPUIVFPQConfig => GPUIVFPQConfig.index_default
  | cls_GPUCAGRAConfig => GPUCAGRAConfig.index_default
  | cls_GPUBruteForceConfig => GPUBruteForceConfig.index_default
  end.

Definition _milvus_case_config : gmap IndexType.t config_class :=
  {[ IndexType.AUTOINDEX := cls_AutoIndexConfig;
     IndexType.HNSW := cls_HNSWConfig;
     IndexType.DISKANN := cls_DISKANNConfig;
     IndexType.IVFFlat := cls_IVFFlatConfig;
     IndexType.IVFSQ8 := cls_IVFSQ8Config;
     IndexType.Flat := cls_FLATConfig;
     IndexType.GPU_IVF_FLAT := cls_GPUIVFFlatConfig;
     IndexType.GPU_IVF_PQ := cls_GPUIVFPQConfig;
     IndexType.GPU_CAGRA := cls_GPUCAGRAConfig;
     IndexType.GPU_BRUTE_FORCE := cls_GPUBruteForceConfig ]}.

(** Modelled from the spec: the lookup operation of the Family Registry.  The
    module defines the table [_milvus_case_config] only; the function that
    consults it lives with the caller.  Per the spec it yields the
    constructor registered for the family and fails with [NotSupported] when
    there is none. *)
Definition registry_lookup (family : IndexType.t) : result config_class :=
  match _milvus_case_config !! family with
  | Some cls => Ok cls
  | None => Raise NotSupported
  end.

(** ** The connection config *)

Module SecretStr.
Record t := mk { get_secret_value : string }.

(** [len(s)] *)
Definition len (s : t) : nat := String.length (get_secret_value s).
End SecretStr.

(** The part of the base class [DBConfig] of [..api] that [MilvusConfig]
    calls: the two lists of shared field names. *)
Module DBConfig.
Class t := {
  common_short_configs : list string;
  common_long_configs : list string;
}.
End DBConfig.

(** [len(v)] for the values [isinstance(v, str | SecretStr)] accepts, [None]
    for any other value. *)
Class StrLen (V : Type) := str_len : V → option nat.
#[export] Instance str_len_str : StrLen string := λ s, Some (String.length s).
#[export] Instance str_len_secret : StrLen SecretStr.t := λ s, Some (SecretStr.len s).
#[export] Instance str_len_option `{StrLen V} : StrLen (option V) := λ o, o ≫= str_len.

(** What the attribute [uri] of a connection config holds: the secret that
    validation made of the value passed or, when none was passed, the default
    as the class writes it, a plain string (a default is not validated). *)
Inductive uri_val :=
  | UriSecret (s : SecretStr.t)
  | UriStr (s : string).

Coercion UriSecret : SecretStr.t >-> uri_val.

(** [v.get_secret_value()]: a plain string has no such method. *)
Definition uri_get_secret_value (v : uri_val) : result string :=
  match v with
  | UriSecret s => Ok (SecretStr.get_secret_value s)
  | UriStr _ => Raise (AttributeError "get_secret_value")
  end.

Module MilvusConfig.
Record t := mk {
  uri : uri_val;
  user : option string;
  password : option SecretStr.t;
}.

Definition to_dict (self : t) : result (gmap string atom) :=
  secret ← uri_get_secret_value (uri self);
  mret {[ "uri" := Str secret;
          "user" :=
            match user self with
            | Some u => if bool_decide (u = "") then PyNone else Str u
            | None => PyNone
            end;
          "password" :=
            match password self with
            | Some p =>
                if bool_decide (SecretStr.len p = 0%nat) then PyNone
                else Str (SecretStr.get_secret_value p)
            | None => PyNone
            end ]}.

Section validation.
Context `{DBConfig.t}.

Definition not_empty_field `{StrLen V} (field_name : string) (v : V)
    : validated V :=
  if bool_decide (field_name ∈ DBConfig.common_short_configs)
     || bool_decide (field_name ∈ DBConfig.common_long_configs)
     || bool_decide (field_name ∈ ["user"; "password"])
  then Valid v
  else if bool_decide (str_len v = Some 0%nat)
  then Invalid [(field_name, ValueError "Empty string!")]
  else Valid v.

(** [name: T = d] under [@validator("*")]: the validator runs on a value
    that was passed, not on the default. *)
Definition validated_field `{StrLen V} (name : string) (d : V)
    (arg : option V) : validated V :=
  match arg with
  | Some v => not_empty_field name v
  | None => Valid d
  end.

(** [uri: SecretStr = "http://localhost:19530"]: a value that is passed is
    held as a secret, after the validator; the default is held as it is
    written. *)
Definition uri_field (arg : option SecretStr.t) : validated uri_val :=
  match arg with
  | Some v => Valid UriSecret <*> not_empty_field "uri" v
  | None => Valid (UriStr "http://localhost:19530")
  end.

(** The fields [MilvusConfig] declares; those it inherits from [DBConfig]
    are declared in [..api]. *)
Definition init (uri : option SecretStr.t) (user : option (option string))
    (password : option (option SecretStr.t)) : result t :=
  construct (Valid mk
    <*> uri_field uri
    <*> validated_field "user" None user
    <*> validated_field "password" None password).
End validation.
End MilvusConfig.

(** * Properties *)

(** ** Metric normalisation *)

Section parse_metric.
Context `{MilvusIndexConfig.t A}.
Implicit Types self : A.

Lemma parse_metric_unset self :
  metric_falsy (MilvusIndexConfig.metric_type self) = true →
  MilvusIndexConfig.parse_metric self = Ok "".
Proof. unfold MilvusIndexConfig.parse_metric. by intros ->. Qed.

Lemma parse_metric_enum self m :
  MilvusIndexConfig.metric_type self = MEnum m →
  MilvusIndexConfig.parse_metric self =
    Ok (if MilvusIndexConfig.is_gpu_index self
           && bool_decide (MetricType.value m = "COSINE")
        then "L2" else MetricType.value m).
Proof.
  unfold MilvusIndexConfig.parse_metric. intros ->. cbn.
  case_bool_decide as Hempty.
  - rewrite Hempty. by rewrite andb_false_r.
  - by destruct (_ && _).
Qed.

Lemma parse_metric_gpu_cosine self :
  MilvusIndexConfig.is_gpu_index self = true →
  metric_falsy (MilvusIndexConfig.metric_type self) = false →
  metric_eqb (MilvusIndexConfig.metric_type self) MetricType.COSINE = true →
  MilvusIndexConfig.parse_metric self = Ok "L2".
Proof. unfold MilvusIndexConfig.parse_metric. by intros -> -> ->. Qed.
End parse_metric.

(** The four classes whose declared family is GPU-accelerated. *)
Definition gpu_classes : list config_class :=
  [cls_GPUIVFFlatConfig; cls_GPUIVFPQConfig; cls_GPUCAGRAConfig;
   cls_GPUBruteForceConfig].

(** A cosine metric is configured: the attribute holds the member
    [MetricType.COSINE] or, where the field is a [str], its identifier. *)
Definition cosine_configured (self : case_config) : Prop :=
  MilvusIndexConfig.metric_type self = MEnum MetricType.COSINE
  ∨ MilvusIndexConfig.metric_type self = MStr (MetricType.value MetricType.COSINE).

(** No metric is configured: the attribute is [None] or, where the field is
    a [str], the empty string. *)
Definition no_metric_configured (self : case_config) : Prop :=
  MilvusIndexConfig.metric_type self = MNone
  ∨ MilvusIndexConfig.metric_type self = MStr "".

Lemma gpu_classes_declare_gpu_families (self : case_config) :
  class_of self ∈ gpu_classes →
  MilvusIndexConfig.index self = index_default (class_of self) →
  MilvusIndexConfig.is_gpu_index self = true.
Proof.
  intros Hcls Hidx.
  unfold MilvusIndexConfig.is_gpu_index. rewrite Hidx.
  apply (bool_decide_pack _) in Hcls.
  destruct self; vm_compute in Hcls; try done; reflexivity.
Qed.

(** C1.  On every variant whose family is GPU-accelerated ([is_gpu_index], which
    holds for the GPU inverted-file, GPU inverted-file + product quantization,
    GPU CAGRA and GPU brute-force variants, see
    [gpu_classes_declare_gpu_families]) and on which a cosine metric is
    configured, [parse_metric] returns normally, and what it returns is the
    identifier "L2", not "COSINE". *)
Theorem gpu_cosine_parses_to_L2 (self : case_config) :
  MilvusIndexConfig.is_gpu_index self = true →
  cosine_configured self →
  MilvusIndexConfig.parse_metric self = Ok "L2"
  ∧ MilvusIndexConfig.parse_metric self ≠ Ok "COSINE".
Proof.
  intros Hgpu Hcos.
  assert (MilvusIndexConfig.parse_metric self = Ok "L2") as ->.
  { apply parse_metric_gpu_cosine; [done | |]; by destruct Hcos as [-> | ->]. }
  split; [reflexivity | discriminate].
Qed.

Definition gpu_brute_force_cosine : case_config :=
  OfGPUBruteForceConfig
    {| GPUBruteForceConfig.index := IndexType.GPU_BRUTE_FORCE;
       GPUBruteForceConfig.metric_type := "COSINE";
       GPUBruteForceConfig.limit := 10 |}.

Lemma gpu_cosine_parses_to_L2_witness :
  MilvusIndexConfig.is_gpu_index gpu_brute_force_cosine = true
  ∧ cosine_configured gpu_brute_force_cosine
  ∧ MilvusIndexConfig.parse_metric gpu_brute_force_cosine = Ok "L2"
  ∧ MilvusIndexConfig.parse_metric gpu_brute_force_cosine ≠ Ok "COSINE".
Proof.
  assert (MilvusIndexConfig.is_gpu_index gpu_brute_force_cosine = true) as Hgpu
    by reflexivity.
  assert (cosine_configured gpu_brute_force_cosine) as Hcos
    by (right; reflexivity).
  exact (conj Hgpu (conj Hcos (gpu_cosine_parses_to_L2 _ Hgpu Hcos))).
Defined.

(** C8.  On every variant on which no metric is configured, [parse_metric]
    returns the empty string. *)
Theorem unset_metric_parses_to_empty (self : case_config) :
  no_metric_configured self →
  MilvusIndexConfig.parse_metric self = Ok "".
Proof.
  intros Hnone. apply parse_metric_unset.
  by destruct Hnone as [-> | ->].
Qed.

Definition flat_without_metric : case_config :=
  OfFLATConfig
    {| FLATConfig.index := IndexType.Flat; FLATConfig.metric_type := None |}.

Lemma unset_metric_parses_to_empty_witness :
  no_metric_configured flat_without_metric
  ∧ MilvusIndexConfig.parse_metric flat_without_metric = Ok "".
Proof.
  assert (no_metric_configured flat_without_metric) as Hnone
    by (left; reflexivity).
  exact (conj Hnone (unset_metric_parses_to_empty _ Hnone)).
Defined.

(** ** The GPU inverted-file scenario *)

(** C2.  The GPU inverted-file variant built with partition count 1024, probe
    count 64, device-cache flag "true" and cosine metric renders the two
    payloads of the scenario. *)
Theorem gpu_ivf_flat_scenario :
  ∃ self,
    GPUIVFFlatConfig.init None (Some (Some MetricType.COSINE))
      (Some 1024) (Some 64) (Some "true") None = Ok self
    ∧ DBCaseConfig.index_param self =
        Ok {[ "metric_type" := Atom (Str "L2");
              "index_type" := Atom (Str "GPU_IVF_FLAT");
              "params" := Dict {[ "nlist" := Int 1024;
                                  "cache_dataset_on_device" := Str "true" ]} ]}
    ∧ DBCaseConfig.search_param self =
        Ok {[ "metric_type" := Atom (Str "L2");
              "params" := Dict {[ "nprobe" := Int 64;
                                  "refine_ratio" := PyNone ]} ]}.
Proof. eexists. split; [reflexivity |]. split; reflexivity. Qed.

(** ** Required knobs *)

(** The GPU brute-force variant declares no device-cache flag: it is built
    without one. *)
Lemma gpu_brute_force_needs_no_cache_flag :
  GPUBruteForceConfig.init None (Some "L2") None =
    Ok {| GPUBruteForceConfig.index := IndexType.GPU_BRUTE_FORCE;
          GPUBruteForceConfig.metric_type := "L2";
          GPUBruteForceConfig.limit := 10 |}
  ∧ ¬ ∃ errors,
      GPUBruteForceConfig.init None (Some "L2") None =
        Raise (ValidationError errors)
      ∧ ("cache_dataset_on_device", MissingRequiredField) ∈ errors.
Proof.
  split; [reflexivity |]. intros (errors & Hraise & _). discriminate Hraise.
Qed.

(** C3, amended.  Building the GPU inverted-file, the GPU inverted-file +
    product quantization or the GPU CAGRA variant without the device-cache
    flag fails at construction, whatever the other arguments, with a report
    that [cache_dataset_on_device] is missing; no instance exists whose
    payloads could be rendered.  The GPU brute-force variant has no such
    flag: given its metric, it is built. *)
Theorem gpu_cache_flag_required :
  (∀ index metric_type nlist nprobe refine_ratio,
     GPUIVFFlatConfig.init index metric_type nlist nprobe None refine_ratio =
       Raise (ValidationError [("cache_dataset_on_device", MissingRequiredField)]))
  ∧ (∀ index metric_type nlist m nbits nprobe refine_ratio,
     GPUIVFPQConfig.init index metric_type nlist m nbits nprobe refine_ratio None =
       Raise (ValidationError [("cache_dataset_on_device", MissingRequiredField)]))
  ∧ (∀ index metric_type intermediate_graph_degree graph_degree itopk_size
       team_size search_width min_iterations max_iterations build_algo
       refine_ratio,
     GPUCAGRAConfig.init index metric_type intermediate_graph_degree
       graph_degree itopk_size team_size search_width min_iterations
       max_iterations build_algo None refine_ratio =
       Raise (ValidationError [("cache_dataset_on_device", MissingRequiredField)]))
  ∧ (∀ index metric_type limit,
     GPUBruteForceConfig.init index (Some metric_type) limit =
       Ok {| GPUBruteForceConfig.index :=
               default IndexType.GPU_BRUTE_FORCE index;
             GPUBruteForceConfig.metric_type := metric_type;
             GPUBruteForceConfig.limit := default 10 limit |}).
Proof. repeat split; intros; reflexivity. Qed.

(** ** Shape of the payloads *)

(** The methods of the base class see an instance of a class as the class
    does. *)
Lemma parse_metric_of (self : case_config) :
  MilvusIndexConfig.parse_metric self =
    match self with
    | OfAutoIndexConfig c => MilvusIndexConfig.parse_metric c
    | OfHNSWConfig c => MilvusIndexConfig.parse_metric c
    | OfDISKANNConfig c => MilvusIndexConfig.parse_metric c
    | OfIVFFlatConfig c => MilvusIndexConfig.parse_metric c
    | OfIVFSQ8Config c => MilvusIndexConfig.parse_metric c
    | OfFLATConfig c => MilvusIndexConfig.parse_metric c
    | OfGPUIVFFlatConfig c => MilvusIndexConfig.parse_metric c
    | OfGPUIVFPQConfig c => MilvusIndexConfig.parse_metric c
    | OfGPUCAGRAConfig c => MilvusIndexConfig.parse_metric c
    | OfGPUBruteForceConfig c => MilvusIndexConfig.parse_metric c
    end.
Proof. by destruct self. Qed.

(** Where [metric_type] is declared [MetricType | None], [parse_metric]
    cannot raise. *)
Lemma parse_metric_total (self : case_config) :
  class_of self ≠ cls_GPUBruteForceConfig →
  ∃ m, MilvusIndexConfig.parse_metric self = Ok m.
Proof.
  intros Hcls.
  assert (∃ o, MilvusIndexConfig.metric_type self = from_option MEnum MNone o)
    as [[m|] Hmt].
  { destruct self; try (eexists; reflexivity). done. }
  - eexists. by apply parse_metric_enum.
  - exists "". apply parse_metric_unset. by rewrite Hmt.
Qed.

(** Unfold the payload methods of whichever class is at hand. *)
Ltac unfold_payloads_in H :=
  cbn in H;
  unfold AutoIndexConfig.index_param, AutoIndexConfig.search_param,
    HNSWConfig.index_param, HNSWConfig.search_param,
    DISKANNConfig.index_param, DISKANNConfig.search_param,
    IVFFlatConfig.index_param, IVFFlatConfig.search_param,
    IVFSQ8Config.index_param, IVFSQ8Config.search_param,
    FLATConfig.index_param, FLATConfig.search_param,
    GPUIVFFlatConfig.index_param, GPUIVFFlatConfig.search_param,
    GPUIVFPQConfig.index_param, GPUIVFPQConfig.search_param,
    GPUCAGRAConfig.index_param, GPUCAGRAConfig.search_param,
    GPUBruteForceConfig.index_param, GPUBruteForceConfig.search_param in H.

Ltac unfold_payloads :=
  cbn;
  unfold AutoIndexConfig.index_param, AutoIndexConfig.search_param,
    HNSWConfig.index_param, HNSWConfig.search_param,
    DISKANNConfig.index_param, DISKANNConfig.search_param,
    IVFFlatConfig.index_param, IVFFlatConfig.search_param,
    IVFSQ8Config.index_param, IVFSQ8Config.search_param,
    FLATConfig.index_param, FLATConfig.search_param,
    GPUIVFFlatConfig.index_param, GPUIVFFlatConfig.search_param,
    GPUIVFPQConfig.index_param, GPUIVFPQConfig.search_param,
    GPUCAGRAConfig.index_param, GPUCAGRAConfig.search_param,
    GPUBruteForceConfig.index_param, GPUBruteForceConfig.search_param.

(** Render the payloads in the goal, knowing what [parse_metric] returns. *)
Ltac render_payloads Hm :=
  rewrite parse_metric_of in Hm; unfold_payloads; rewrite Hm; cbn.

(** The automatic-index variant renders a query-time payload with one key:
    there is no nested mapping of parameters in it. *)
Lemma auto_index_search_param_has_one_key :
  let self := OfAutoIndexConfig
    {| AutoIndexConfig.index := IndexType.AUTOINDEX;
       AutoIndexConfig.metric_type := Some MetricType.L2 |} in
  DBCaseConfig.search_param self = Ok {[ "metric_type" := Atom (Str "L2") ]}
  ∧ ¬ ∃ d, DBCaseConfig.search_param self = Ok d
           ∧ dom d = {[ "metric_type"; "params" ]}.
Proof.
  split; [reflexivity |].
  intros (d & Hd & Hdom). injection Hd as <-.
  assert ("params" ∈ dom ({[ "metric_type" := Atom (Str "L2") ]} : gmap string pyobj))
    as Hin by (rewrite Hdom; set_solver).
  rewrite dom_singleton_L in Hin. set_solver.
Qed.

(** On the GPU brute-force variant [metric_type] is a plain string: with a
    metric other than cosine, [parse_metric] reaches [.value] on it and
    raises, and so do both payload methods. *)
Lemma gpu_brute_force_plain_metric_raises :
  let self :=
    {| GPUBruteForceConfig.index := IndexType.GPU_BRUTE_FORCE;
       GPUBruteForceConfig.metric_type := "L2";
       GPUBruteForceConfig.limit := 10 |} in
  MilvusIndexConfig.parse_metric self = Raise (AttributeError "value")
  ∧ DBCaseConfig.index_param self = Raise (AttributeError "value")
  ∧ DBCaseConfig.search_param self = Raise (AttributeError "value").
Proof. repeat split. Qed.

(** C4, amended.  On every variant on which [parse_metric] returns — it
    always does, except possibly on the GPU brute-force variant —
    [index_param] carries the identifier [parse_metric] returned, and
    [search_param] carries the same identifier; [search_param] has exactly
    the two keys "metric_type" and "params", the latter a nested mapping, on
    every variant but the automatic-index one, where "metric_type" is its
    only key. *)
Theorem search_param_shape (self : case_config) :
  (class_of self ≠ cls_GPUBruteForceConfig →
   ∃ m, MilvusIndexConfig.parse_metric self = Ok m)
  ∧ ∀ m, MilvusIndexConfig.parse_metric self = Ok m →
      (∃ p, DBCaseConfig.index_param self =
              Ok {[ "metric_type" := Atom (Str m);
                    "index_type" :=
                      Atom (Str (IndexType.value (MilvusIndexConfig.index self)));
                    "params" := Dict p ]})
      ∧ (if decide (class_of self = cls_AutoIndexConfig)
         then DBCaseConfig.search_param self =
                Ok {[ "metric_type" := Atom (Str m) ]}
         else ∃ q, DBCaseConfig.search_param self =
                Ok {[ "metric_type" := Atom (Str m); "params" := Dict q ]}).
Proof.
  split; [apply parse_metric_total |].
  intros m Hm.
  destruct self; render_payloads Hm; (split; [| try case_decide; try done]);
    eexists; reflexivity.
Qed.

Definition hnsw_l2 : case_config :=
  OfHNSWConfig
    {| HNSWConfig.index := IndexType.HNSW;
       HNSWConfig.metric_type := Some MetricType.L2;
       HNSWConfig.M := 16; HNSWConfig.efConstruction := 200;
       HNSWConfig.ef := Some 64 |}.

Lemma search_param_shape_witness :
  class_of hnsw_l2 ≠ cls_GPUBruteForceConfig
  ∧ MilvusIndexConfig.parse_metric hnsw_l2 = Ok "L2"
  ∧ ∃ q, DBCaseConfig.search_param hnsw_l2 =
           Ok {[ "metric_type" := Atom (Str "L2"); "params" := Dict q ]}.
Proof.
  split; [discriminate |]. split; [reflexivity |].
  exact (proj2 (proj2 (search_param_shape hnsw_l2) "L2" eq_refl)).
Defined.

(** ** Build-time and query-time knobs *)

(** The spec's catalogue of knobs (its table of variants), under the names
    the fields carry in the payloads. *)
Definition build_time_knobs : list string :=
  ["M"; "efConstruction"; "nlist"; "m"; "nbits"; "cache_dataset_on_device";
   "intermediate_graph_degree"; "graph_degree"; "build_algo"].

Definition query_time_knobs : list string :=
  ["ef"; "search_list"; "nprobe"; "refine_ratio"; "team_size"; "search_width";
   "itopk_size"; "min_iterations"; "max_iterations"; "limit"].

Definition query_time_only (k : string) : Prop :=
  k ∈ query_time_knobs ∧ k ∉ build_time_knobs.

Definition build_time_only (k : string) : Prop :=
  k ∈ build_time_knobs ∧ k ∉ query_time_knobs.

(** No knob is in both columns of the catalogue. *)
Lemma knob_columns_disjoint (k : string) :
  k ∈ build_time_knobs → k ∈ query_time_knobs → False.
Proof.
  unfold build_time_knobs, query_time_knobs. intros Hb Hq.
  repeat (apply elem_of_cons in Hb as [-> | Hb];
          [by repeat (apply elem_of_cons in Hq as [Hq | Hq]; [discriminate Hq |]);
              apply elem_of_nil in Hq |]).
  by apply elem_of_nil in Hb.
Qed.

(** The nested mapping of a payload, when the payload has one. *)
Definition params_of (d : gmap string pyobj) : option (gmap string atom) :=
  match d !! "params" with
  | Some (Dict p) => Some p
  | _ => None
  end.

Lemma none_of_listed {V} (p : gmap string V) (ks : list string) (k : string) :
  Forall (λ k, p !! k = None) ks → k ∈ ks → p !! k = None.
Proof. intros Hall Hk. by eapply Forall_forall in Hall. Qed.

Ltac knobs_absent :=
  eapply none_of_listed; [| eassumption];
  repeat (apply Forall_cons; split; [reflexivity |]); apply Forall_nil_2.

(** C7.  On every variant, the nested mapping of [index_param] holds no
    query-time-only knob and the nested mapping of [search_param] holds no
    build-time-only knob. *)
Theorem payload_knobs_separated (self : case_config)
    (d : gmap string pyobj) (p : gmap string atom) (k : string) :
  (DBCaseConfig.index_param self = Ok d → params_of d = Some p →
   query_time_only k → p !! k = None)
  ∧ (DBCaseConfig.search_param self = Ok d → params_of d = Some p →
     build_time_only k → p !! k = None).
Proof.
  split; intros Hd Hp [Hk _];
    destruct (MilvusIndexConfig.parse_metric self) as [m|e] eqn:Hm.
  all: rewrite parse_metric_of in Hm; destruct self; unfold_payloads_in Hd;
    rewrite Hm in Hd; try discriminate Hd.
  all: injection Hd as <-; try discriminate Hp; injection Hp as <-.
  all: knobs_absent.
Qed.

Lemma payload_knobs_separated_witness :
  query_time_only "ef"
  ∧ ({[ "M" := Int 16; "efConstruction" := Int 200 ]} : gmap string atom) !! "ef"
    = None.
Proof.
  assert (query_time_only "ef") as Hk.
  { split; apply (bool_decide_unpack _); reflexivity. }
  split; [exact Hk |].
  exact (proj1 (payload_knobs_separated hnsw_l2 _ _ "ef") eq_refl eq_refl Hk).
Defined.

(** ** Optional query-time knobs *)

(** An argument that leaves an optional field unconfigured: the keyword is
    not passed, or is passed as [None]. *)
Definition unconfigured {V} (arg : option (option V)) : Prop :=
  arg = None ∨ arg = Some None.

Lemma unconfigured_default {V} (arg : option (option V)) :
  unconfigured arg → default None arg = None.
Proof. by intros [-> | ->]. Qed.

Ltac built_unconfigured Hinit Harg :=
  apply unconfigured_default in Harg;
  unfold HNSWConfig.init, DISKANNConfig.init, IVFFlatConfig.init,
    IVFSQ8Config.init, GPUIVFFlatConfig.init, GPUIVFPQConfig.init,
    GPUCAGRAConfig.init, optional, required in Hinit;
  rewrite Harg in Hinit;
  repeat match type of Hinit with
         | context [match ?o with Some _ => _ | None => _ end] =>
             is_var o; destruct o
         end;
  try discriminate Hinit; injection Hinit as <-.

(** C10.  For every variant with an optional query-time knob — [ef] of HNSW,
    [search_list] of DISKANN, [nprobe] of the two inverted-file variants,
    [refine_ratio] of the three GPU variants that have one — an instance
    built with the knob left unconfigured renders a [search_param] whose
    nested mapping has the knob's key, with the value [None]. *)
Theorem unconfigured_knob_rendered_as_None :
  (∀ index metric_type M efConstruction ef self,
     HNSWConfig.init index metric_type M efConstruction ef = Ok self →
     unconfigured ef →
     ∃ m p, DBCaseConfig.search_param self =
              Ok {[ "metric_type" := Atom (Str m); "params" := Dict p ]}
            ∧ p !! "ef" = Some PyNone)
  ∧ (∀ index metric_type search_list self,
     DISKANNConfig.init index metric_type search_list = Ok self →
     unconfigured search_list →
     ∃ m p, DBCaseConfig.search_param self =
              Ok {[ "metric_type" := Atom (Str m); "params" := Dict p ]}
            ∧ p !! "search_list" = Some PyNone)
  ∧ (∀ index metric_type nlist nprobe self,
     IVFFlatConfig.init index metric_type nlist nprobe = Ok self →
     unconfigured nprobe →
     ∃ m p, DBCaseConfig.search_param self =
              Ok {[ "metric_type" := Atom (Str m); "params" := Dict p ]}
            ∧ p !! "nprobe" = Some PyNone)
  ∧ (∀ index metric_type nlist nprobe self,
     IVFSQ8Config.init index metric_type nlist nprobe = Ok self →
     unconfigured nprobe →
     ∃ m p, DBCaseConfig.search_param self =
              Ok {[ "metric_type" := Atom (Str m); "params" := Dict p ]}
            ∧ p !! "nprobe" = Some PyNone)
  ∧ (∀ index metric_type nlist nprobe cache_dataset_on_device refine_ratio self,
     GPUIVFFlatConfig.init index metric_type nlist nprobe
       cache_dataset_on_device refine_ratio = Ok self →
     unconfigured refine_ratio →
     ∃ m p, DBCaseConfig.search_param self =
              Ok {[ "metric_type" := Atom (Str m); "params" := Dict p ]}
            ∧ p !! "refine_ratio" = Some PyNone)
  ∧ (∀ index metric_type nlist m nbits nprobe refine_ratio
       cache_dataset_on_device self,
     GPUIVFPQConfig.init index metric_type nlist m nbits nprobe refine_ratio
       cache_dataset_on_device = Ok self →
     unconfigured refine_ratio →
     ∃ m p, DBCaseConfig.search_param self =
              Ok {[ "metric_type" := Atom (Str m); "params" := Dict p ]}
            ∧ p !! "refine_ratio" = Some PyNone)
  ∧ (∀ index metric_type intermediate_graph_degree graph_degree itopk_size
       team_size search_width min_iterations max_iterations build_algo
       cache_dataset_on_device refine_ratio self,
     GPUCAGRAConfig.init index metric_type intermediate_graph_degree
       graph_degree itopk_size team_size search_width min_iterations
       max_iterations build_algo cache_dataset_on_device refine_ratio
       = Ok self →
     unconfigured refine_ratio →
     ∃ m p, DBCaseConfig.search_param self =
              Ok {[ "metric_type" := Atom (Str m); "params" := Dict p ]}
            ∧ p !! "refine_ratio" = Some PyNone).
Proof.
  repeat split; intros until self; intros Hinit Harg.
  - destruct (parse_metric_total (OfHNSWConfig self)) as [id Hm]; [done |].
    built_unconfigured Hinit Harg; render_payloads Hm;
      eexists _, _; (split; [reflexivity |]); reflexivity.
  - destruct (parse_metric_total (OfDISKANNConfig self)) as [id Hm]; [done |].
    built_unconfigured Hinit Harg; render_payloads Hm;
      eexists _, _; (split; [reflexivity |]); reflexivity.
  - destruct (parse_metric_total (OfIVFFlatConfig self)) as [id Hm]; [done |].
    built_unconfigured Hinit Harg; render_payloads Hm;
      eexists _, _; (split; [reflexivity |]); reflexivity.
  - destruct (parse_metric_total (OfIVFSQ8Config self)) as [id Hm]; [done |].
    built_unconfigured Hinit Harg; render_payloads Hm;
      eexists _, _; (split; [reflexivity |]); reflexivity.
  - destruct (parse_metric_total (OfGPUIVFFlatConfig self)) as [id Hm]; [done |].
    built_unconfigured Hinit Harg; render_payloads Hm;
      eexists _, _; (split; [reflexivity |]); reflexivity.
  - destruct (parse_metric_total (OfGPUIVFPQConfig self)) as [id Hm]; [done |].
    built_unconfigured Hinit Harg; render_payloads Hm;
      eexists _, _; (split; [reflexivity |]); reflexivity.
  - destruct (parse_metric_total (OfGPUCAGRAConfig self)) as [id Hm]; [done |].
    built_unconfigured Hinit Harg; render_payloads Hm;
      eexists _, _; (split; [reflexivity |]); reflexivity.
Qed.

Lemma unconfigured_knob_rendered_as_None_witness :
  HNSWConfig.init None None (Some 16) (Some 200) None =
    Ok {| HNSWConfig.index := IndexType.HNSW; HNSWConfig.metric_type := None;
          HNSWConfig.M := 16; HNSWConfig.efConstruction := 200;
          HNSWConfig.ef := None |}
  ∧ unconfigured (None : option (option Z))
  ∧ ∃ m p,
      DBCaseConfig.search_param
        {| HNSWConfig.index := IndexType.HNSW; HNSWConfig.metric_type := None;
           HNSWConfig.M := 16; HNSWConfig.efConstruction := 200;
           HNSWConfig.ef := None |} =
        Ok {[ "metric_type" := Atom (Str m); "params" := Dict p ]}
      ∧ p !! "ef" = Some PyNone.
Proof.
  split; [reflexivity |]. split; [by left |].
  exact (proj1 unconfigured_knob_rendered_as_None
           None None (Some 16) (Some 200) None _ eq_refl (or_introl eq_refl)).
Defined.

(** ** The connection config *)

Section connection.
Context `{DBConfig.t}.

(** The endpoint is not one of the shared fields of [DBConfig]. *)
Hypothesis uri_not_short : "uri" ∉ DBConfig.common_short_configs.
Hypothesis uri_not_long : "uri" ∉ DBConfig.common_long_configs.

Lemma not_empty_field_uri (s : SecretStr.t) :
  MilvusConfig.not_empty_field "uri" s =
    if bool_decide (SecretStr.len s = 0%nat)
    then Invalid [("uri", ValueError "Empty string!")]
    else Valid s.
Proof.
  unfold MilvusConfig.not_empty_field.
  rewrite (bool_decide_eq_false_2 _ uri_not_short),
    (bool_decide_eq_false_2 _ uri_not_long).
  cbn. unfold str_len, str_len_secret.
  destruct (SecretStr.len s); reflexivity.
Qed.

Lemma not_empty_field_credential {V} `{StrLen V} (name : string) (v : V) :
  name ∈ ["user"; "password"] →
  MilvusConfig.not_empty_field name v = Valid v.
Proof.
  intros Hname. unfold MilvusConfig.not_empty_field.
  rewrite (bool_decide_eq_true_2 _ Hname).
  by rewrite !orb_true_r.
Qed.

(** C5.  A connection config built with an empty-string endpoint is
    refused with a validation report on [uri], whatever the credentials;
    built with a non-empty endpoint it is accepted whatever the
    credentials, an empty-string user name or password included. *)
Theorem empty_endpoint_refused_empty_credentials_accepted :
  (∀ user password,
     MilvusConfig.init (Some (SecretStr.mk "")) user password =
       Raise (ValidationError [("uri", ValueError "Empty string!")]))
  ∧ (∀ uri,
     SecretStr.get_secret_value uri ≠ "" →
     MilvusConfig.init (Some uri) (Some (Some "")) None =
       Ok {| MilvusConfig.uri := uri; MilvusConfig.user := Some "";
             MilvusConfig.password := None |}
     ∧ MilvusConfig.init (Some uri) None (Some (Some (SecretStr.mk ""))) =
       Ok {| MilvusConfig.uri := uri; MilvusConfig.user := None;
             MilvusConfig.password := Some (SecretStr.mk "") |}
     ∧ ∀ user password,
         MilvusConfig.init (Some uri) user password =
           Ok {| MilvusConfig.uri := uri;
                 MilvusConfig.user := default None user;
                 MilvusConfig.password := default None password |}).
Proof.
  assert (∀ uri user password,
    MilvusConfig.init (Some uri) user password =
      if bool_decide (SecretStr.len uri = 0%nat)
      then Raise (ValidationError [("uri", ValueError "Empty string!")])
      else Ok {| MilvusConfig.uri := uri;
                 MilvusConfig.user := default None user;
                 MilvusConfig.password := default None password |}) as Hinit.
  { intros uri user password.
    unfold MilvusConfig.init, MilvusConfig.uri_field,
      MilvusConfig.validated_field.
    rewrite not_empty_field_uri.
    destruct user as [user|], password as [password|];
      rewrite ?not_empty_field_credential by set_solver;
      by case_bool_decide. }
  split.
  - intros user password. by rewrite Hinit.
  - intros [uri] Huri.
    assert (bool_decide (SecretStr.len (SecretStr.mk uri) = 0%nat) = false)
      as Hlen.
    { apply bool_decide_eq_false_2. cbn in *. by destruct uri. }
    rewrite !Hinit, Hlen. repeat split.
    intros user password. by rewrite Hinit, Hlen.
Qed.
End connection.

(** Shared field names for an example: [db_label] is the inherited field the
    command line passes to [MilvusConfig]. *)
Definition example_shared_fields : DBConfig.t :=
  {| DBConfig.common_short_configs := ["db_label"];
     DBConfig.common_long_configs := [] |}.

Lemma empty_endpoint_refused_empty_credentials_accepted_witness :
  let _ := example_shared_fields in
  ("uri" ∉ DBConfig.common_short_configs)
  ∧ ("uri" ∉ DBConfig.common_long_configs)
  ∧ SecretStr.get_secret_value (SecretStr.mk "http://localhost:19530") ≠ ""
  ∧ MilvusConfig.init (Some (SecretStr.mk "")) None None =
      Raise (ValidationError [("uri", ValueError "Empty string!")])
  ∧ MilvusConfig.init (Some (SecretStr.mk "http://localhost:19530"))
      (Some (Some "")) None =
      Ok {| MilvusConfig.uri := SecretStr.mk "http://localhost:19530";
            MilvusConfig.user := Some ""; MilvusConfig.password := None |}.
Proof.
  intros inst.
  assert ("uri" ∉ @DBConfig.common_short_configs inst) as Hshort.
  { apply (bool_decide_unpack _). reflexivity. }
  assert ("uri" ∉ @DBConfig.common_long_configs inst) as Hlong.
  { apply (bool_decide_unpack _). reflexivity. }
  assert (SecretStr.get_secret_value (SecretStr.mk "http://localhost:19530") ≠ "")
    as Huri by discriminate.
  pose proof (@empty_endpoint_refused_empty_credentials_accepted
                inst Hshort Hlong) as [Hempty Hcred].
  exact (conj Hshort (conj Hlong (conj Huri
           (conj (Hempty None None) (proj1 (Hcred _ Huri)))))).
Defined.

(** C9.  [to_dict] is meant to give the endpoint as the string the secret
    wraps.  On a connection config built without an endpoint it does not
    return: [uri] then holds the default of the class, which is written as a
    plain string, and [to_dict] raises [AttributeError] on unwrapping it,
    whatever the credentials. *)
Theorem to_dict_raises_on_default_uri `{DBConfig.t}
    (user : option (option string)) (password : option (option SecretStr.t)) :
  ∃ self,
    MilvusConfig.init None user password = Ok self
    ∧ MilvusConfig.uri self = UriStr "http://localhost:19530"
    ∧ MilvusConfig.to_dict self = Raise (AttributeError "get_secret_value").
Proof.
  unfold MilvusConfig.init, MilvusConfig.uri_field,
    MilvusConfig.validated_field.
  assert (∀ V `{StrLen V} (name : string) (v : V),
            name ∈ ["user"; "password"] →
            MilvusConfig.not_empty_field name v = Valid v) as Hcred.
  { intros V ? name v Hname. unfold MilvusConfig.not_empty_field.
    by rewrite (bool_decide_eq_true_2 _ Hname), !orb_true_r. }
  destruct user as [user|], password as [password|];
    rewrite ?Hcred by (by repeat constructor);
    eexists; (split; [reflexivity |]); split; reflexivity.
Qed.

(** ** The family registry *)

Lemma registry_families (family : IndexType.t) :
  _milvus_case_config !! family =
    match family with
    | IndexType.AUTOINDEX => Some cls_AutoIndexConfig
    | IndexType.HNSW => Some cls_HNSWConfig
    | IndexType.DISKANN => Some cls_DISKANNConfig
    | IndexType.IVFFlat => Some cls_IVFFlatConfig
    | IndexType.IVFSQ8 => Some cls_IVFSQ8Config
    | IndexType.Flat => Some cls_FLATConfig
    | IndexType.GPU_IVF_FLAT => Some cls_GPUIVFFlatConfig
    | IndexType.GPU_IVF_PQ => Some cls_GPUIVFPQConfig
    | IndexType.GPU_CAGRA => Some cls_GPUCAGRAConfig
    | IndexType.GPU_BRUTE_FORCE => Some cls_GPUBruteForceConfig
    | IndexType.Other _ => None
    end.
Proof.
  destruct family; reflexivity.
Qed.

(** C6.  Looking up a family the registry does not hold fails with
    [NotSupported] — and there are such families; looking up a family it
    holds returns the class registered for it, which is the class that
    declares this family as its own. *)
Theorem registry_lookup_outcomes :
  (∀ family,
     _milvus_case_config !! family = None →
     registry_lookup family = Raise NotSupported)
  ∧ (∀ tag, registry_lookup (IndexType.Other tag) = Raise NotSupported)
  ∧ (∀ family cls,
     _milvus_case_config !! family = Some cls →
     registry_lookup family = Ok cls ∧ index_default cls = family).
Proof.
  split; [| split].
  - intros family Hnone. unfold registry_lookup. by rewrite Hnone.
  - intros tag. unfold registry_lookup. by rewrite registry_families.
  - intros family cls Hsome. unfold registry_lookup. rewrite Hsome.
    split; [reflexivity |].
    rewrite registry_families in Hsome.
    destruct family; try discriminate Hsome; by injection Hsome as <-.
Qed.

Lemma registry_lookup_outcomes_witness :
  _milvus_case_config !! IndexType.Other "ES_HNSW" = None
  ∧ registry_lookup (IndexType.Other "ES_HNSW") = Raise NotSupported
  ∧ _milvus_case_config !! IndexType.GPU_CAGRA = Some cls_GPUCAGRAConfig
  ∧ registry_lookup IndexType.GPU_CAGRA = Ok cls_GPUCAGRAConfig
  ∧ index_default cls_GPUCAGRAConfig = IndexType.GPU_CAGRA.
Proof.
  assert (_milvus_case_config !! IndexType.Other "ES_HNSW" = None) as Hnone
    by reflexivity.
  assert (_milvus_case_config !! IndexType.GPU_CAGRA = Some cls_GPUCAGRAConfig)
    as Hsome by reflexivity.
  destruct registry_lookup_outcomes as (Hout & _ & Hin).
  exact (conj Hnone (conj (Hout _ Hnone) (conj Hsome (Hin _ _ Hsome)))).
Defined.

(** * Further properties of the module *)

(** ** Metric normalisation, beyond the GPU substitution *)

(** X1.  Where [metric_type] holds a member of [MetricType] — as it does on
    every class but the GPU brute-force one, whose metric is a string —
    [parse_metric] returns the identifier of that member unchanged unless the
    family is GPU-accelerated and the identifier is the one of cosine: on a
    family that is not GPU-accelerated every member, cosine included, comes
    back as it is, and on any family so does every member but cosine. *)
Theorem metric_unchanged_outside_gpu_cosine
    (self : case_config) (m : MetricType.t) :
  MilvusIndexConfig.metric_type self = MEnum m →
  MilvusIndexConfig.is_gpu_index self = false ∨ MetricType.value m ≠ "COSINE" →
  MilvusIndexConfig.parse_metric self = Ok (MetricType.value m).
Proof.
  intros Hmt Hcase. rewrite (parse_metric_enum _ _ Hmt).
  destruct Hcase as [-> | Hm]; [reflexivity |].
  by rewrite (bool_decide_eq_false_2 _ Hm), andb_false_r.
Qed.

Definition hnsw_cosine : case_config :=
  OfHNSWConfig
    {| HNSWConfig.index := IndexType.HNSW;
       HNSWConfig.metric_type := Some MetricType.COSINE;
       HNSWConfig.M := 16; HNSWConfig.efConstruction := 200;
       HNSWConfig.ef := None |}.

Lemma metric_unchanged_outside_gpu_cosine_witness :
  MilvusIndexConfig.metric_type hnsw_cosine = MEnum MetricType.COSINE
  ∧ MilvusIndexConfig.is_gpu_index hnsw_cosine = false
  ∧ MilvusIndexConfig.parse_metric hnsw_cosine = Ok "COSINE".
Proof.
  split; [reflexivity |]. split; [reflexivity |].
  exact (metric_unchanged_outside_gpu_cosine hnsw_cosine MetricType.COSINE
           eq_refl (or_introl eq_refl)).
Defined.

Lemma parse_metric_gpu_not_cosine `{MilvusIndexConfig.t A} (self : A)
    (r : string) :
  MilvusIndexConfig.is_gpu_index self = true →
  MilvusIndexConfig.parse_metric self = Ok r →
  r ≠ "COSINE".
Proof.
  unfold MilvusIndexConfig.parse_metric. intros ->.
  destruct (MilvusIndexConfig.metric_type self) as [|m|s]; cbn.
  - by intros [= <-].
  - repeat case_bool_decide; cbn; by intros [= <-].
  - repeat case_bool_decide; cbn; by intros [= <-].
Qed.

(** X2.  On a GPU-accelerated family neither payload ever names the cosine
    metric, whatever [metric_type] holds — a member of the enumeration, the
    three named or any other, or a string: [parse_metric] does not return
    "COSINE", and the "metric_type" entry of what [index_param] or
    [search_param] returns is a string other than "COSINE". *)
Theorem gpu_payloads_never_name_cosine
    (self : case_config) (d : gmap string pyobj) :
  MilvusIndexConfig.is_gpu_index self = true →
  DBCaseConfig.index_param self = Ok d ∨ DBCaseConfig.search_param self = Ok d →
  MilvusIndexConfig.parse_metric self ≠ Ok "COSINE"
  ∧ ∃ r, d !! "metric_type" = Some (Atom (Str r)) ∧ r ≠ "COSINE".
Proof.
  intros Hgpu Hd.
  destruct (MilvusIndexConfig.parse_metric self) as [r|e] eqn:Hm.
  - pose proof (parse_metric_gpu_not_cosine _ _ Hgpu Hm) as Hr.
    split; [by intros [= ->] |].
    exists r. split; [| done].
    rewrite parse_metric_of in Hm.
    destruct self, Hd as [Hd | Hd]; unfold_payloads_in Hd; rewrite Hm in Hd;
      by injection Hd as <-.
  - exfalso. rewrite parse_metric_of in Hm.
    destruct self, Hd as [Hd | Hd]; unfold_payloads_in Hd; rewrite Hm in Hd;
      discriminate Hd.
Qed.

Definition gpu_cagra_cosine : case_config :=
  OfGPUCAGRAConfig
    {| GPUCAGRAConfig.index := IndexType.GPU_CAGRA;
       GPUCAGRAConfig.metric_type := Some MetricType.COSINE;
       GPUCAGRAConfig.intermediate_graph_degree := 64;
       GPUCAGRAConfig.graph_degree := 32;
       GPUCAGRAConfig.itopk_size := 128;
       GPUCAGRAConfig.team_size := 0;
       GPUCAGRAConfig.search_width := 4;
       GPUCAGRAConfig.min_iterations := 0;
       GPUCAGRAConfig.max_iterations := 0;
       GPUCAGRAConfig.build_algo := "IVF_PQ";
       GPUCAGRAConfig.cache_dataset_on_device := "true";
       GPUCAGRAConfig.refine_ratio := None |}.

Lemma gpu_payloads_never_name_cosine_witness :
  MilvusIndexConfig.is_gpu_index gpu_cagra_cosine = true
  ∧ (∃ d, DBCaseConfig.index_param gpu_cagra_cosine = Ok d)
  ∧ MilvusIndexConfig.parse_metric gpu_cagra_cosine ≠ Ok "COSINE".
Proof.
  split; [reflexivity |]. split; [eexists; reflexivity |].
  exact (proj1 (gpu_payloads_never_name_cosine gpu_cagra_cosine _
                  eq_refl (or_introl eq_refl))).
Defined.

(** X3.  On an instance that carries the family its class declares,
    [is_gpu_index] holds exactly for the four GPU classes. *)
Theorem is_gpu_index_iff_gpu_class (self : case_config) :
  MilvusIndexConfig.index self = index_default (class_of self) →
  MilvusIndexConfig.is_gpu_index self = true ↔ class_of self ∈ gpu_classes.
Proof.
  intros Hidx. unfold MilvusIndexConfig.is_gpu_index. rewrite Hidx.
  split.
  - intros Hgpu. apply (bool_decide_unpack _).
    destruct self; first [reflexivity | discriminate Hgpu].
  - intros Hcls. apply (bool_decide_pack _) in Hcls.
    destruct self; vm_compute in Hcls; try done; reflexivity.
Qed.

Lemma is_gpu_index_iff_gpu_class_witness :
  MilvusIndexConfig.index hnsw_cosine = index_default (class_of hnsw_cosine)
  ∧ (MilvusIndexConfig.is_gpu_index hnsw_cosine = true
     ↔ class_of hnsw_cosine ∈ gpu_classes).
Proof.
  split; [reflexivity |].
  exact (is_gpu_index_iff_gpu_class hnsw_cosine eq_refl).
Defined.

(** ** The brute-force variant and its string metric *)

(** X4.  On a GPU brute-force instance built with its own family,
    [parse_metric] returns only for the empty metric string (giving "") and
    for "COSINE" (giving "L2"); for every other metric string, "L2" and "IP"
    included, it raises [AttributeError]. *)
Theorem gpu_brute_force_metric_outcomes
    (metric_type : string) (limit : option Z) (self : GPUBruteForceConfig.t) :
  GPUBruteForceConfig.init None (Some metric_type) limit = Ok self →
  (metric_type = "" → MilvusIndexConfig.parse_metric self = Ok "")
  ∧ (metric_type = "COSINE" → MilvusIndexConfig.parse_metric self = Ok "L2")
  ∧ (metric_type ≠ "" → metric_type ≠ "COSINE" →
     MilvusIndexConfig.parse_metric self = Raise (AttributeError "value")).
Proof.
  intros [= <-].
  split; [by intros -> |]. split; [by intros -> |].
  intros Hne Hcos. unfold MilvusIndexConfig.parse_metric. cbn.
  by rewrite (bool_decide_eq_false_2 _ Hne), (bool_decide_eq_false_2 _ Hcos).
Qed.

Lemma gpu_brute_force_metric_outcomes_witness :
  GPUBruteForceConfig.init None (Some "IP") None =
    Ok {| GPUBruteForceConfig.index := IndexType.GPU_BRUTE_FORCE;
          GPUBruteForceConfig.metric_type := "IP";
          GPUBruteForceConfig.limit := 10 |}
  ∧ "IP" ≠ "" ∧ "IP" ≠ "COSINE"
  ∧ MilvusIndexConfig.parse_metric
      {| GPUBruteForceConfig.index := IndexType.GPU_BRUTE_FORCE;
         GPUBruteForceConfig.metric_type := "IP";
         GPUBruteForceConfig.limit := 10 |} = Raise (AttributeError "value").
Proof.
  assert ("IP" ≠ "") as Hne by discriminate.
  assert ("IP" ≠ "COSINE") as Hcos by discriminate.
  split; [reflexivity |]. split; [exact Hne |]. split; [exact Hcos |].
  exact (proj2 (proj2 (gpu_brute_force_metric_outcomes "IP" None _ eq_refl))
           Hne Hcos).
Defined.

(** X5.  The two payload methods raise exactly when [parse_metric] does, and
    then raise what it raised: on every variant, an exception of
    [parse_metric] is the outcome of both [index_param] and [search_param],
    and neither raises anything when [parse_metric] returns. *)
Theorem payloads_raise_with_parse_metric (self : case_config) :
  (∀ e, MilvusIndexConfig.parse_metric self = Raise e →
     DBCaseConfig.index_param self = Raise e
     ∧ DBCaseConfig.search_param self = Raise e)
  ∧ (∀ e, DBCaseConfig.index_param self = Raise e
          ∨ DBCaseConfig.search_param self = Raise e →
     MilvusIndexConfig.parse_metric self = Raise e).
Proof.
  split.
  - intros e Hm. by destruct self; render_payloads Hm.
  - intros e Hd.
    destruct (MilvusIndexConfig.parse_metric self) as [m|e'] eqn:Hm;
      rewrite parse_metric_of in Hm;
      destruct self, Hd as [Hd | Hd]; unfold_payloads_in Hd; rewrite Hm in Hd;
      first [discriminate Hd | by injection Hd as <-].
Qed.

Definition gpu_brute_force_ip : case_config :=
  OfGPUBruteForceConfig
    {| GPUBruteForceConfig.index := IndexType.GPU_BRUTE_FORCE;
       GPUBruteForceConfig.metric_type := "IP";
       GPUBruteForceConfig.limit := 10 |}.

Lemma payloads_raise_with_parse_metric_witness :
  MilvusIndexConfig.parse_metric gpu_brute_force_ip
    = Raise (AttributeError "value")
  ∧ DBCaseConfig.index_param gpu_brute_force_ip = Raise (AttributeError "value")
  ∧ DBCaseConfig.search_param gpu_brute_force_ip = Raise (AttributeError "value").
Proof.
  split; [reflexivity |].
  exact (proj1 (payloads_raise_with_parse_metric gpu_brute_force_ip) _ eq_refl).
Defined.

(** ** What the payloads hold *)

Lemma no_None_insert (k : string) (v : atom) (p : gmap string atom) :
  v ≠ PyNone →
  map_Forall (λ _ v, v ≠ PyNone) p →
  map_Forall (λ _ v, v ≠ PyNone) (<[k:=v]> p).
Proof. intros Hv Hp. by apply map_Forall_insert_2. Qed.

(** X6.  A build-time payload holds no [None]: on every variant, every knob
    in the nested mapping of [index_param] has a value — unlike the
    query-time payload, where an unconfigured knob is rendered as [None]. *)
Theorem index_param_params_hold_no_None (self : case_config)
    (d : gmap string pyobj) (p : gmap string atom) (k : string) :
  DBCaseConfig.index_param self = Ok d →
  params_of d = Some p →
  p !! k ≠ Some PyNone.
Proof.
  intros Hd Hp Hk.
  assert (map_Forall (λ _ v, v ≠ PyNone) p) as Hall.
  { destruct (MilvusIndexConfig.parse_metric self) as [m|e] eqn:Hm;
      rewrite parse_metric_of in Hm;
      destruct self; unfold_payloads_in Hd; rewrite Hm in Hd;
      try discriminate Hd; injection Hd as <-; injection Hp as <-.
    all: repeat (apply no_None_insert; [discriminate |]).
    all: first [apply map_Forall_empty
               | apply map_Forall_singleton; discriminate]. }
  by apply (Hall k PyNone).
Qed.

Lemma index_param_params_hold_no_None_witness :
  ({[ "M" := Int 16; "efConstruction" := Int 200 ]} : gmap string atom) !! "M"
  ≠ Some PyNone.
Proof.
  exact (index_param_params_hold_no_None hnsw_cosine _ _ "M" eq_refl eq_refl).
Defined.

(** ** Construction *)

(** A constructor call went through. *)
Definition built {A} (r : result A) : Prop := ∃ self, r = Ok self.

(** Whether a construction goes through is decided field by field. *)
Lemma built_required {A B} (f : validated (A → B)) (name : string) (o : option A) :
  built (construct (f <*> required name o)) ↔ built (construct f) ∧ is_Some o.
Proof.
  unfold built. destruct f as [g|e], o as [a|]; cbn; split.
  all: try (intros [self [=]]).
  all: try (intros [[self [=]] Ho]).
  all: try (intros [_ [? [=]]]).
  all: try (by destruct Ho as [? [=]]).
  all: eauto.
Qed.

Lemma built_optional {A B} (f : validated (A → B)) (d : A) (o : option A) :
  built (construct (f <*> optional d o)) ↔ built (construct f).
Proof.
  unfold built. destruct f as [g|e]; cbn; split.
  all: try (intros [self [=]]).
  all: eauto.
Qed.

Lemma built_valid {A} (a : A) : built (construct (Valid a)).
Proof. by exists a. Qed.


(** X7.  What each class needs to be built.  The automatic-index, DISKANN and
    flat variants are built from any arguments; HNSW exactly when both [M]
    and [efConstruction] are given; the two inverted-file variants exactly
    when [nlist] is; the GPU inverted-file, GPU product-quantization and GPU
    CAGRA variants exactly when [cache_dataset_on_device] is; the GPU
    brute-force variant exactly when [metric_type] is. *)
Theorem built_iff_required_given :
  (∀ index metric_type, built (AutoIndexConfig.init index metric_type))
  ∧ (∀ index metric_type search_list,
       built (DISKANNConfig.init index metric_type search_list))
  ∧ (∀ index metric_type, built (FLATConfig.init index metric_type))
  ∧ (∀ index metric_type M efConstruction ef,
       built (HNSWConfig.init index metric_type M efConstruction ef)
       ↔ is_Some M ∧ is_Some efConstruction)
  ∧ (∀ index metric_type nlist nprobe,
       built (IVFFlatConfig.init index metric_type nlist nprobe)
       ↔ is_Some nlist)
  ∧ (∀ index metric_type nlist nprobe,
       built (IVFSQ8Config.init index metric_type nlist nprobe)
       ↔ is_Some nlist)
  ∧ (∀ index metric_type nlist nprobe cache_dataset_on_device refine_ratio,
       built (GPUIVFFlatConfig.init index metric_type nlist nprobe
                cache_dataset_on_device refine_ratio)
       ↔ is_Some cache_dataset_on_device)
  ∧ (∀ index metric_type nlist m nbits nprobe refine_ratio
       cache_dataset_on_device,
       built (GPUIVFPQConfig.init index metric_type nlist m nbits nprobe
                refine_ratio cache_dataset_on_device)
       ↔ is_Some cache_dataset_on_device)
  ∧ (∀ index metric_type intermediate_graph_degree graph_degree itopk_size
       team_size search_width min_iterations max_iterations build_algo
       cache_dataset_on_device refine_ratio,
       built (GPUCAGRAConfig.init index metric_type intermediate_graph_degree
                graph_degree itopk_size team_size search_width min_iterations
                max_iterations build_algo cache_dataset_on_device refine_ratio)
       ↔ is_Some cache_dataset_on_device)
  ∧ (∀ index metric_type limit,
       built (GPUBruteForceConfig.init index metric_type limit)
       ↔ is_Some metric_type).
Proof.
  repeat match goal with |- _ ∧ _ => split end; intros.
  all: unfold AutoIndexConfig.init, DISKANNConfig.init, FLATConfig.init,
         HNSWConfig.init, IVFFlatConfig.init, IVFSQ8Config.init,
         GPUIVFFlatConfig.init, GPUIVFPQConfig.init, GPUCAGRAConfig.init,
         GPUBruteForceConfig.init.
  all: repeat (rewrite built_required || rewrite built_optional).
  all: match goal with
       | |- context [construct (Valid ?mk)] => pose proof (built_valid mk)
       end; tauto.
Qed.

(** Go through the entries of a report. *)
Ltac report_in Hin :=
  repeat (apply elem_of_cons in Hin as [Hin | Hin]; [try discriminate Hin |]);
  try (apply elem_of_nil in Hin; destruct Hin).

(** X8.  The report on a rejected HNSW construction is complete: it names
    every required knob that is missing — both, when both are — and nothing
    else. *)
Theorem hnsw_reports_every_missing_knob
    (index : option IndexType.t) (metric_type : option (option MetricType.t))
    (M efConstruction : option Z) (ef : option (option Z)) (e : exn) :
  HNSWConfig.init index metric_type M efConstruction ef = Raise e →
  ∃ errors, e = ValidationError errors
    ∧ (("M", MissingRequiredField) ∈ errors ↔ M = None)
    ∧ (("efConstruction", MissingRequiredField) ∈ errors ↔ efConstruction = None)
    ∧ ∀ name why, (name, why) ∈ errors →
        why = MissingRequiredField ∧ (name = "M" ∨ name = "efConstruction").
Proof.
  destruct M as [M|], efConstruction as [efConstruction|]; cbn;
    intros [= <-]; eexists; (split; [reflexivity |]).
  all: split; [| split].
  all: try (split;
            [intros Hin; report_in Hin; done
            | intros Heq; first [discriminate Heq | by repeat constructor]]).
  all: intros name why Hin; report_in Hin; injection Hin as -> ->; auto.
Qed.

Lemma hnsw_reports_every_missing_knob_witness :
  HNSWConfig.init None None None None None =
    Raise (ValidationError [("M", MissingRequiredField);
                            ("efConstruction", MissingRequiredField)])
  ∧ ∃ errors,
      ValidationError [("M", MissingRequiredField);
                       ("efConstruction", MissingRequiredField)]
        = ValidationError errors
      ∧ (("M", MissingRequiredField) ∈ errors ↔ (None : option Z) = None)
      ∧ (("efConstruction", MissingRequiredField) ∈ errors
         ↔ (None : option Z) = None)
      ∧ ∀ name why, (name, why) ∈ errors →
          why = MissingRequiredField ∧ (name = "M" ∨ name = "efConstruction").
Proof.
  split; [reflexivity |].
  exact (hnsw_reports_every_missing_knob None None None None None _ eq_refl).
Defined.

(** ** The registry and the classes *)

(** X9.  The registry pairs the ten families one-to-one with the ten
    classes: a family is registered to a class exactly when it is the family
    the class declares for its [index] field; so an instance that carries the
    family of its class is found, under that family, as its class. *)
Theorem registry_pairs_families_with_classes :
  (∀ family cls,
     _milvus_case_config !! family = Some cls ↔ index_default cls = family)
  ∧ size _milvus_case_config = 10%nat
  ∧ (∀ self : case_config,
     MilvusIndexConfig.index self = index_default (class_of self) →
     _milvus_case_config !! MilvusIndexConfig.index self = Some (class_of self)).
Proof.
  split; [| split; [reflexivity |]].
  - intros family cls. rewrite registry_families.
    destruct family, cls; split; first [reflexivity | discriminate].
  - intros self ->. rewrite registry_families. by destruct self.
Qed.

Lemma registry_pairs_families_with_classes_witness :
  MilvusIndexConfig.index hnsw_cosine = index_default (class_of hnsw_cosine)
  ∧ _milvus_case_config !! IndexType.HNSW = Some cls_HNSWConfig.
Proof.
  split; [reflexivity |].
  exact (proj2 (proj2 registry_pairs_families_with_classes) hnsw_cosine eq_refl).
Defined.

(** ** Construction of the connection config *)

Section connection_outcomes.
Context `{DBConfig.t}.


End connection_outcomes.


(** ** Defaults of the GPU variants *)

(** X11.  The defaults of the GPU variants.  Built with the device-cache
    flag alone, the GPU inverted-file variant renders [nlist] 1024 and
    [nprobe] 64; the product-quantization variant [nlist] 1024, [m] 0,
    [nbits] 8 and [nprobe] 32; the CAGRA variant graph degrees 64 and 32,
    build algorithm "IVF_PQ", [itopk_size] 128, [search_width] 4 and zero
    team size and iteration bounds; the metric is the empty string and
    [refine_ratio] is [None] in all three. *)
Theorem gpu_defaults_rendered (cache_dataset_on_device : string) :
  (∃ self,
     GPUIVFFlatConfig.init None None None None (Some cache_dataset_on_device)
       None = Ok self
     ∧ DBCaseConfig.index_param self =
         Ok {[ "metric_type" := Atom (Str "");
               "index_type" := Atom (Str (IndexType.value IndexType.GPU_IVF_FLAT));
               "params" := Dict {[
                 "nlist" := Int 1024;
                 "cache_dataset_on_device" := Str cache_dataset_on_device ]} ]}
     ∧ DBCaseConfig.search_param self =
         Ok {[ "metric_type" := Atom (Str "");
               "params" := Dict {[ "nprobe" := Int 64;
                                   "refine_ratio" := PyNone ]} ]})
  ∧ (∃ self,
     GPUIVFPQConfig.init None None None None None None None
       (Some cache_dataset_on_device) = Ok self
     ∧ DBCaseConfig.index_param self =
         Ok {[ "metric_type" := Atom (Str "");
               "index_type" := Atom (Str (IndexType.value IndexType.GPU_IVF_PQ));
               "params" := Dict {[
                 "nlist" := Int 1024; "m" := Int 0; "nbits" := Int 8;
                 "cache_dataset_on_device" := Str cache_dataset_on_device ]} ]}
     ∧ DBCaseConfig.search_param self =
         Ok {[ "metric_type" := Atom (Str "");
               "params" := Dict {[ "nprobe" := Int 32;
                                   "refine_ratio" := PyNone ]} ]})
  ∧ (∃ self,
     GPUCAGRAConfig.init None None None None None None None None None None
       (Some cache_dataset_on_device) None = Ok self
     ∧ DBCaseConfig.index_param self =
         Ok {[ "metric_type" := Atom (Str "");
               "index_type" := Atom (Str (IndexType.value IndexType.GPU_CAGRA));
               "params" := Dict {[
                 "intermediate_graph_degree" := Int 64;
                 "graph_degree" := Int 32;
                 "build_algo" := Str "IVF_PQ";
                 "cache_dataset_on_device" := Str cache_dataset_on_device ]} ]}
     ∧ DBCaseConfig.search_param self =
         Ok {[ "metric_type" := Atom (Str "");
               "params" := Dict {[
                 "team_size" := Int 0; "search_width" := Int 4;
                 "itopk_size" := Int 128; "min_iterations" := Int 0;
                 "max_iterations" := Int 0; "refine_ratio" := PyNone ]} ]}).
Proof.
  repeat split; eexists; (split; [reflexivity |]); split; reflexivity.
Qed.

(** ** What [to_dict] gives for an endpoint that was passed *)

(** X12.  On a connection config whose [uri] holds a secret — as it does
    whenever an endpoint was passed at construction — [to_dict] returns a
    mapping with the keys "uri", "user" and "password": the endpoint is the
    string the secret wraps, and the user name and the password are [None]
    both when absent and when empty, and their own string otherwise. *)
Theorem to_dict_of_passed_uri (self : MilvusConfig.t) (s : SecretStr.t) :
  MilvusConfig.uri self = UriSecret s →
  ∃ d, MilvusConfig.to_dict self = Ok d
    ∧ dom d = {[ "uri"; "user"; "password" ]}
    ∧ d !! "uri" = Some (Str (SecretStr.get_secret_value s))
    ∧ (MilvusConfig.user self = None ∨ MilvusConfig.user self = Some "" →
       d !! "user" = Some PyNone)
    ∧ (MilvusConfig.password self = None
       ∨ MilvusConfig.password self = Some (SecretStr.mk "") →
       d !! "password" = Some PyNone)
    ∧ (∀ u, MilvusConfig.user self = Some u → u ≠ "" →
       d !! "user" = Some (Str u))
    ∧ (∀ p, MilvusConfig.password self = Some p →
       SecretStr.get_secret_value p ≠ "" →
       d !! "password" = Some (Str (SecretStr.get_secret_value p))).
Proof.
  destruct self as [uri user password]. cbn. intros ->.
  unfold MilvusConfig.to_dict. cbn. eexists. split; [reflexivity |].
  split; [| split; [reflexivity |]; split; [| split; [| split]]].
  - rewrite !dom_insert_L, dom_singleton_L. set_solver.
  - by intros [-> | ->].
  - by intros [-> | ->].
  - intros u -> Hu. by rewrite (bool_decide_eq_false_2 _ Hu).
  - intros [p] -> Hp.
    assert (bool_decide (SecretStr.len (SecretStr.mk p) = 0%nat) = false) as ->;
      [| reflexivity].
    apply bool_decide_eq_false_2. cbn in *. by destruct p.
Qed.

Lemma to_dict_of_passed_uri_witness :
  let self := {| MilvusConfig.uri := SecretStr.mk "http://localhost:19530";
                 MilvusConfig.user := Some "";
                 MilvusConfig.password := Some (SecretStr.mk "") |} in
  MilvusConfig.uri self = UriSecret (SecretStr.mk "http://localhost:19530")
  ∧ ∃ d, MilvusConfig.to_dict self = Ok d
      ∧ d !! "uri" = Some (Str "http://localhost:19530")
      ∧ d !! "user" = Some PyNone
      ∧ d !! "password" = Some PyNone.
Proof.
  intros self. split; [reflexivity |].
  destruct (to_dict_of_passed_uri self _ eq_refl)
    as (d & Hd & _ & Huri & Huser & Hpw & _).
  exact (ex_intro _ d (conj Hd (conj Huri
           (conj (Huser (or_intror eq_refl)) (Hpw (or_intror eq_refl)))))).
Defined.
